(** * The AI e-mail assistant front end (frontend/src/App.js)

    A shallow embedding of the [App] component: its eight [useState] cells,
    the event handlers [generateReplies], [selectReply], [copyToClipboard],
    the tone lookups [getToneIcon] and [getToneColor], and the handlers that
    the JSX attaches inline.  The environment the handlers talk to (the
    network behind [axios.post], the console, [alert], the clipboard) is an
    explicit part of the state. *)

From Stdlib Require Import List NArith Bool Arith Lia String Ascii.
Import ListNotations.

(** ** The fragment of JavaScript the component relies on *)

Module JS.

(** A JavaScript string is a sequence of UTF-16 code units. *)
Definition jsstring := list N.

(** An ASCII literal of the source, one code unit per character. *)
Definition lit (s : string) : jsstring :=
  map N_of_ascii (list_ascii_of_string s).

Fixpoint str_eqb (a b : jsstring) : bool :=
  match a, b with
  | [], [] => true
  | x :: a', y :: b' => N.eqb x y && str_eqb a' b'
  | _, _ => false
  end.

(** ToBoolean on a string: only the empty string is falsy. *)
Definition truthy_str (s : jsstring) : bool :=
  match s with [] => false | _ :: _ => true end.

(** [a || b] on two strings. *)
Definition or_str (a b : jsstring) : jsstring :=
  if truthy_str a then a else b.

(** [a || null] on a string. *)
Definition or_null (a : jsstring) : option jsstring :=
  if truthy_str a then Some a else None.

(** The code points [String.prototype.trim] strips: WhiteSpace and
    LineTerminator of ECMA-262 (TAB, LF, VT, FF, CR, SP, NBSP, the Zs
    category, LS, PS and the BOM).  All lie in the basic plane, so each is
    one code unit. *)
Definition is_white_space (c : N) : bool :=
  ((9 <=? c) && (c <=? 13)
   || (c =? 32) || (c =? 160) || (c =? 5760)
   || (8192 <=? c) && (c <=? 8202)
   || (c =? 8232) || (c =? 8233) || (c =? 8239) || (c =? 8287)
   || (c =? 12288) || (c =? 65279))%N.

Fixpoint trimStart (s : jsstring) : jsstring :=
  match s with
  | [] => []
  | c :: s' => if is_white_space c then trimStart s' else s
  end.

Definition trimEnd (s : jsstring) : jsstring :=
  rev (trimStart (rev s)).

Definition trim (s : jsstring) : jsstring :=
  trimEnd (trimStart s).

(** The values a property read on an object literal can produce here:
    a string stored in the literal, [undefined], or something inherited
    from [Object.prototype] (a built-in function, or the prototype object
    itself through the [__proto__] accessor). *)
Inductive JSValue : Type :=
| VUndefined
| VString (s : jsstring)
| VFunction (name : jsstring)
| VObjectPrototype.

Definition truthy (v : JSValue) : bool :=
  match v with
  | VUndefined => false
  | VString s => truthy_str s
  | VFunction _ => true
  | VObjectPrototype => true
  end.

(** [a || b] *)
Definition or_value (a b : JSValue) : JSValue :=
  if truthy a then a else b.

(** An object literal [{k1: v1, ...}]: its own properties, in source
    order; its prototype is [Object.prototype]. *)
Definition ObjectLiteral := list (jsstring * JSValue).

Fixpoint own_property (o : ObjectLiteral) (k : jsstring) : option JSValue :=
  match o with
  | [] => None
  | (k', v) :: o' => if str_eqb k' k then Some v else own_property o' k
  end.

(** The function-valued properties of [Object.prototype]. *)
Definition object_prototype_methods : list string :=
  [ "constructor"; "hasOwnProperty"; "isPrototypeOf";
    "propertyIsEnumerable"; "toLocaleString"; "toString"; "valueOf";
    "__defineGetter__"; "__defineSetter__";
    "__lookupGetter__"; "__lookupSetter__" ]%string.

(** The name of the function object stored under a method key:
    [Object.prototype.constructor] is [Object] itself. *)
Definition method_function (k : jsstring) : jsstring :=
  if str_eqb k (lit "constructor") then lit "Object" else k.

(** [[Get]] on [Object.prototype] with an object literal as receiver. *)
Definition object_prototype_get (k : jsstring) : JSValue :=
  if existsb (fun m => str_eqb (lit m) k) object_prototype_methods
  then VFunction (method_function k)
  else if str_eqb k (lit "__proto__") then VObjectPrototype
  else VUndefined.

(** [o[k]]: own property first, then the prototype chain. *)
Definition get (o : ObjectLiteral) (k : jsstring) : JSValue :=
  match own_property o k with
  | Some v => v
  | None => object_prototype_get k
  end.

(** Keys that [Object.prototype] answers. *)
Definition inherited_key (k : jsstring) : bool :=
  existsb (fun m => str_eqb (lit m) k) object_prototype_methods
  || str_eqb k (lit "__proto__").

End JS.

Import JS.

(** ** Data *)

(** A reply as the generation endpoint returns it. *)
Record Reply : Type := mkReply {
  id : jsstring;
  tone : jsstring;
  content : jsstring;
  preview : jsstring
}.

(** The state cells of [App], in the order of the [useState] calls. *)
Record AppState : Type := mkAppState {
  emailContent : jsstring;
  senderName : jsstring;
  senderEmail : jsstring;
  replies : list Reply;
  selectedReply : option Reply;
  editedReply : jsstring;
  loading : bool;
  error : jsstring
}.

Definition setEmailContent (v : jsstring) (a : AppState) : AppState :=
  mkAppState v (senderName a) (senderEmail a) (replies a)
             (selectedReply a) (editedReply a) (loading a) (error a).

Definition setSenderName (v : jsstring) (a : AppState) : AppState :=
  mkAppState (emailContent a) v (senderEmail a) (replies a)
             (selectedReply a) (editedReply a) (loading a) (error a).

Definition setSenderEmail (v : jsstring) (a : AppState) : AppState :=
  mkAppState (emailContent a) (senderName a) v (replies a)
             (selectedReply a) (editedReply a) (loading a) (error a).

Definition setReplies (v : list Reply) (a : AppState) : AppState :=
  mkAppState (emailContent a) (senderName a) (senderEmail a) v
             (selectedReply a) (editedReply a) (loading a) (error a).

Definition setSelectedReply (v : option Reply) (a : AppState) : AppState :=
  mkAppState (emailContent a) (senderName a) (senderEmail a) (replies a)
             v (editedReply a) (loading a) (error a).

Definition setEditedReply (v : jsstring) (a : AppState) : AppState :=
  mkAppState (emailContent a) (senderName a) (senderEmail a) (replies a)
             (selectedReply a) v (loading a) (error a).

Definition setLoading (v : bool) (a : AppState) : AppState :=
  mkAppState (emailContent a) (senderName a) (senderEmail a) (replies a)
             (selectedReply a) (editedReply a) v (error a).

Definition setError (v : jsstring) (a : AppState) : AppState :=
  mkAppState (emailContent a) (senderName a) (senderEmail a) (replies a)
             (selectedReply a) (editedReply a) (loading a) v.

(** The state of a freshly mounted component. *)
Definition initialState : AppState :=
  mkAppState [] [] [] [] None [] false [].

(** The body [generateReplies] posts. *)
Record Payload : Type := mkPayload {
  email_content : jsstring;
  sender_name : option jsstring;
  sender_email : option jsstring
}.

Record Request : Type := mkRequest {
  url : jsstring;
  body : Payload
}.

(** What [axios.post] rejects with: [err.response?.data?.detail] reads
    through three optional layers. *)
Record ErrorBody : Type := mkErrorBody {
  detail : option jsstring
}.

Record ErrorResponse : Type := mkErrorResponse {
  status : N;
  data : option ErrorBody
}.

Record AxiosError : Type := mkAxiosError {
  response : option ErrorResponse
}.

(** How the awaited post settles: fulfilled with [response.data.replies],
    or rejected. *)
Inductive Outcome : Type :=
| Fulfilled (rs : list Reply)
| Rejected (err : AxiosError).

(** What [navigator.clipboard] does on this platform for one call: the API
    is missing ([navigator.clipboard] is [undefined]), or [writeText]
    returns a promise that rejects, or one that fulfils. *)
Inductive ClipboardAPI : Type :=
| ClipboardMissing
| WriteRejects
| WriteFulfils.

(** The component together with what its handlers act on. *)
Record World : Type := mkWorld {
  app : AppState;
  posts : list Request;                     (* every post issued, oldest first *)
  awaiting : nat;                           (* posts not settled yet *)
  console : list (jsstring * AxiosError);   (* console.error lines *)
  alerts : list jsstring;                   (* alert() dialogs shown *)
  clipboard : jsstring                      (* the system clipboard *)
}.

Definition with_app (f : AppState -> AppState) (w : World) : World :=
  mkWorld (f (app w)) (posts w) (awaiting w) (console w) (alerts w)
          (clipboard w).

Definition initialWorld (clip : jsstring) : World :=
  mkWorld initialState [] 0 [] [] clip.

(** ** The handlers *)

Section Handlers.

(** [process.env.REACT_APP_BACKEND_URL], fixed at build time. *)
Variable BACKEND_URL : jsstring.

Definition API : jsstring := BACKEND_URL ++ lit "/api".

Definition validationMessage : jsstring :=
  lit "Please enter an email to generate replies".

Definition fallbackMessage : jsstring :=
  lit "Failed to generate replies. Please try again.".

Definition copiedMessage : jsstring :=
  lit "Reply copied to clipboard!".

Definition consolePrefix : jsstring :=
  lit "Error generating replies:".

(** [axios.post(u, b)]: the request leaves and a promise is pending. *)
Definition axios_post (u : jsstring) (b : Payload) (w : World) : World :=
  mkWorld (app w) (posts w ++ [mkRequest u b]) (S (awaiting w))
          (console w) (alerts w) (clipboard w).

(** The pending promise settles. *)
Definition settle (w : World) : World :=
  mkWorld (app w) (posts w) (pred (awaiting w))
          (console w) (alerts w) (clipboard w).

Definition console_error (m : jsstring) (err : AxiosError) (w : World)
  : World :=
  mkWorld (app w) (posts w) (awaiting w)
          (console w ++ [(m, err)]) (alerts w) (clipboard w).

Definition alert (m : jsstring) (w : World) : World :=
  mkWorld (app w) (posts w) (awaiting w)
          (console w) (alerts w ++ [m]) (clipboard w).

Definition clipboard_write (t : jsstring) (w : World) : World :=
  mkWorld (app w) (posts w) (awaiting w)
          (console w) (alerts w) t.

(** [err.response?.data?.detail]; [None] is [undefined]. *)
Definition error_detail (err : AxiosError) : option jsstring :=
  match response err with
  | None => None
  | Some r =>
      match data r with
      | None => None
      | Some d => detail d
      end
  end.

(** [err.response?.data?.detail || "Failed to generate replies. ..."] *)
Definition errorMessage (err : AxiosError) : jsstring :=
  match error_detail err with
  | Some d => or_str d fallbackMessage
  | None => fallbackMessage
  end.

(** Where the synchronous part of [generateReplies] stops: at the early
    [return], or at the [await]. *)
Inductive Suspension : Type :=
| Returned
| AwaitingPost.

(** [generateReplies] up to its [await] (lines 18-34). *)
Definition generateReplies_begin (w : World) : World * Suspension :=
  let a := app w in
  if negb (truthy_str (trim (emailContent a))) then
    (with_app (setError validationMessage) w, Returned)
  else
    let w1 := with_app (setLoading true) w in
    let w2 := with_app (setError []) w1 in
    let w3 := with_app (setReplies []) w2 in
    let w4 := with_app (setSelectedReply None) w3 in
    (axios_post (API ++ lit "/generate-replies")
                (mkPayload (emailContent a)
                           (or_null (senderName a))
                           (or_null (senderEmail a)))
                w4,
     AwaitingPost).

(** [generateReplies] from the [await] on (lines 36-42): the [try] body,
    the [catch] and the [finally]. *)
Definition generateReplies_resume (o : Outcome) (w : World) : World :=
  let w1 :=
    match o with
    | Fulfilled rs => with_app (setReplies rs) (settle w)
    | Rejected err =>
        with_app (setError (errorMessage err))
                 (console_error consolePrefix err (settle w))
    end in
  with_app (setLoading false) w1.

(** One whole call, the post settling with [o] and nothing in between. *)
Definition generateReplies (o : Outcome) (w : World) : World :=
  match generateReplies_begin w with
  | (w1, Returned) => w1
  | (w1, AwaitingPost) => generateReplies_resume o w1
  end.

(** Lines 45-48. *)
Definition selectReply (reply : Reply) (w : World) : World :=
  with_app (setEditedReply (content reply))
           (with_app (setSelectedReply (Some reply)) w).

(** How a handler call completes: it returns [undefined], or a
    [TypeError] escapes it. *)
Inductive Completion : Type :=
| ReturnsUndefined
| ThrowsTypeError.

(** Lines 50-53.  The promise [writeText] returns is dropped; with no
    [navigator.clipboard] the member access throws before the alert. *)
Definition copyToClipboard (api : ClipboardAPI) (text : jsstring)
           (w : World) : Completion * World :=
  match api with
  | ClipboardMissing => (ThrowsTypeError, w)
  | WriteRejects => (ReturnsUndefined, alert copiedMessage w)
  | WriteFulfils =>
      (ReturnsUndefined, alert copiedMessage (clipboard_write text w))
  end.

(** The icons, as UTF-16: U+1F454, U+1F60A, U+26A1, U+1F4DD, and the
    default U+1F4E7. *)
Definition icons : ObjectLiteral :=
  [ (lit "professional", VString [55357; 56404]%N);
    (lit "friendly", VString [55357; 56842]%N);
    (lit "brief", VString [9889]%N);
    (lit "detailed", VString [55357; 56541]%N) ].

Definition defaultIcon : jsstring := [55357; 56551]%N.

(** Lines 55-63. *)
Definition getToneIcon (t : jsstring) : JSValue :=
  or_value (get icons t) (VString defaultIcon).

Definition colors : ObjectLiteral :=
  [ (lit "professional", VString (lit "bg-blue-50 border-blue-200"));
    (lit "friendly", VString (lit "bg-green-50 border-green-200"));
    (lit "brief", VString (lit "bg-yellow-50 border-yellow-200"));
    (lit "detailed", VString (lit "bg-purple-50 border-purple-200")) ].

Definition defaultColor : jsstring := lit "bg-gray-50 border-gray-200".

(** Lines 65-73. *)
Definition getToneColor (t : jsstring) : JSValue :=
  or_value (get colors t) (VString defaultColor).

(** The tones the two literals list. *)
Definition known_tone (t : jsstring) : bool :=
  existsb (fun k => str_eqb (lit k) t)
          [ "professional"; "friendly"; "brief"; "detailed" ]%string.

(** ** The rendered page as a transition system

    What the user or the network can do to a mounted component.  A
    control that is not rendered, or is rendered disabled, delivers no
    event: the submit button carries [disabled={loading}], the reply
    cards exist only for the elements of [replies], and the editor panel
    only while [selectedReply] is set. *)
Inductive Event : Type :=
| ChangeSenderName (v : jsstring)
| ChangeSenderEmail (v : jsstring)
| ChangeEmailContent (v : jsstring)
| ClickGenerate
| ClickReplyCard (i : nat)
| ClickCopyCard (i : nat) (api : ClipboardAPI)
| ClickCloseEditor
| ChangeEditedReply (v : jsstring)
| ClickCopyFinal (api : ClipboardAPI)
| ClickReset
| PostSettles (o : Outcome).

Definition user_event (e : Event) : bool :=
  match e with
  | PostSettles _ => false
  | _ => true
  end.

Definition step (w : World) (e : Event) : World :=
  match e with
  | ChangeSenderName v => with_app (setSenderName v) w
  | ChangeSenderEmail v => with_app (setSenderEmail v) w
  | ChangeEmailContent v => with_app (setEmailContent v) w
  | ClickGenerate =>
      if loading (app w) then w else fst (generateReplies_begin w)
  | ClickReplyCard i =>
      match nth_error (replies (app w)) i with
      | Some reply => selectReply reply w
      | None => w
      end
  | ClickCopyCard i api =>
      match nth_error (replies (app w)) i with
      | Some reply => snd (copyToClipboard api (content reply) w)
      | None => w
      end
  | ClickCloseEditor =>
      match selectedReply (app w) with
      | Some _ => with_app (setSelectedReply None) w
      | None => w
      end
  | ChangeEditedReply v =>
      match selectedReply (app w) with
      | Some _ => with_app (setEditedReply v) w
      | None => w
      end
  | ClickCopyFinal api =>
      match selectedReply (app w) with
      | Some _ => snd (copyToClipboard api (editedReply (app w)) w)
      | None => w
      end
  | ClickReset =>
      match selectedReply (app w) with
      | Some sel => with_app (setEditedReply (content sel)) w
      | None => w
      end
  | PostSettles o =>
      match awaiting w with
      | O => w
      | S _ => generateReplies_resume o w
      end
  end.

Definition run (w : World) (es : list Event) : World :=
  fold_left step es w.

(** The editor panel is rendered under [selectedReply && ...]. *)
Definition editorOpen (a : AppState) : bool :=
  match selectedReply a with
  | Some _ => true
  | None => false
  end.

End Handlers.

(** ** Sample data

    The scenario of the specification: one mail, the two replies the
    server returns for it, and two ways for the post to fail. *)

Definition sampleUrl : jsstring := lit "http://localhost:8001".

Definition sampleReplies : list Reply :=
  [ mkReply (lit "1") (lit "professional") (lit "Dear...") (lit "Dear...");
    mkReply (lit "2") (lit "friendly") (lit "Hey...") (lit "Hey...") ].

Definition sampleWorld : World :=
  mkWorld (mkAppState (lit "Hi, can we reschedule?") [] [] sampleReplies
                      None [] false [])
          [] 0 [] [] (lit "old clipboard").

(** A whitespace-only mail: three spaces. *)
Definition blankWorld : World :=
  with_app (setEmailContent (lit "   ")) sampleWorld.

(** No response reached the client. *)
Definition networkError : AxiosError := mkAxiosError None.

(** Status 429 with body [{"detail": "rate limited"}]. *)
Definition rateLimited : AxiosError :=
  mkAxiosError
    (Some (mkErrorResponse 429 (Some (mkErrorBody (Some (lit "rate limited")))))).

(** Status 500 with body [{"detail": ""}]. *)
Definition emptyDetail : AxiosError :=
  mkAxiosError (Some (mkErrorResponse 500 (Some (mkErrorBody (Some []))))).

(** The user has opened the second reply and typed over it. *)
Definition editingWorld : World :=
  run sampleUrl sampleWorld
      [ClickReplyCard 1; ChangeEditedReply (lit "Hey there")].

(** What the user may try while a post is outstanding. *)
Definition impatientUser : list Event :=
  [ ChangeSenderName (lit "Ann"); ClickGenerate; ClickReplyCard 0;
    ChangeEditedReply (lit "x"); ClickReset; ClickCloseEditor ].

(** What the user does to an open editor. *)
Inductive EditorAction : Type :=
| Edit (text : jsstring)
| Reset.

Definition editor_event (x : EditorAction) : Event :=
  match x with
  | Edit text => ChangeEditedReply text
  | Reset => ClickReset
  end.

(** The post is outstanding and the page shows what [generateReplies]
    left before its [await]: spinner on, no cards, no editor. *)
Definition in_flight (w : World) : Prop :=
  loading (app w) = true /\
  replies (app w) = [] /\
  selectedReply (app w) = None /\
  awaiting w <> 0.

(** The loading flag counts the outstanding posts. *)
Definition flag_tracks_posts (w : World) : Prop :=
  awaiting w = if loading (app w) then 1 else 0.

(** The request a submit from the state [a] hands to [axios.post]
    (lines 30-34). *)
Definition postedRequest (u : jsstring) (a : AppState) : Request :=
  mkRequest (API u ++ lit "/generate-replies")
            (mkPayload (emailContent a)
                       (or_null (senderName a))
                       (or_null (senderEmail a))).

(** What the endpoint can rely on in a request. *)
Definition well_formed_request (u : jsstring) (r : Request) : Prop :=
  url r = u ++ lit "/api/generate-replies" /\
  trim (email_content (body r)) <> [] /\
  sender_name (body r) <> Some [] /\
  sender_email (body r) <> Some [].

(** The three inputs of the form. *)
Definition form_event (e : Event) : bool :=
  match e with
  | ChangeSenderName _ | ChangeSenderEmail _ | ChangeEmailContent _ => true
  | _ => false
  end.

(** What holds of the page between two events. *)
Definition page_consistent (w : World) : Prop :=
  flag_tracks_posts w /\
  (loading (app w) = true ->
   replies (app w) = [] /\ selectedReply (app w) = None /\
   error (app w) = []) /\
  (forall reply, selectedReply (app w) = Some reply ->
                 In reply (replies (app w))).

(** A padded mail, a sender name and no sender address, on a page whose
    loading flag is already on. *)
Definition paddedWorld : World :=
  mkWorld (mkAppState (lit "  hi  ") (lit "Ann") [] [] None [] true [])
          [] 1 [] [] [].

(** ** Strings *)

Lemma str_eqb_refl (s : jsstring) : str_eqb s s = true.
Proof.
  induction s as [|c s IH]; simpl; [reflexivity|].
  now rewrite N.eqb_refl, IH.
Qed.

Lemma str_eqb_eq (a b : jsstring) : str_eqb a b = true <-> a = b.
Proof.
  split.
  - revert b; induction a as [|x a IH]; intros [|y b] H; simpl in H;
      try discriminate; [reflexivity|].
    apply andb_true_iff in H as [Hx Hr].
    apply N.eqb_eq in Hx. apply IH in Hr. now subst.
  - intros ->. apply str_eqb_refl.
Qed.

Lemma trimStart_head (s : jsstring) (c : N) (t : jsstring) :
  trimStart s = c :: t -> is_white_space c = false.
Proof.
  induction s as [|x s IH]; simpl; [discriminate|].
  destruct (is_white_space x) eqn:Hx; [exact IH|].
  intros H; injection H as <- _. exact Hx.
Qed.

Lemma trimStart_nil (s : jsstring) :
  trimStart s = [] <-> forallb is_white_space s = true.
Proof.
  induction s as [|x s IH]; simpl; [tauto|].
  destruct (is_white_space x); simpl; [exact IH|].
  split; discriminate.
Qed.

(** A string trims to nothing exactly when it holds only white space. *)
Lemma trim_nil (s : jsstring) :
  trim s = [] <-> forallb is_white_space s = true.
Proof.
  unfold trim, trimEnd. split.
  - intros H.
    apply (f_equal (@rev N)) in H. rewrite rev_involutive in H. simpl in H.
    apply trimStart_nil in H.
    destruct (trimStart s) as [|c t] eqn:Hs.
    + now apply trimStart_nil.
    + apply trimStart_head in Hs.
      rewrite forallb_forall in H.
      specialize (H c). rewrite <- in_rev in H.
      rewrite H in Hs; [discriminate | now left].
  - intros H. apply trimStart_nil in H. now rewrite H.
Qed.

Lemma truthy_str_false (s : jsstring) : truthy_str s = false <-> s = [].
Proof. destruct s; simpl; split; congruence. Qed.

(** ** How the handlers touch the world *)

Lemma copyToClipboard_app (api : ClipboardAPI) (t : jsstring) (w : World) :
  app (snd (copyToClipboard api t w)) = app w.
Proof. now destruct api. Qed.

Lemma copyToClipboard_posts (api : ClipboardAPI) (t : jsstring) (w : World) :
  posts (snd (copyToClipboard api t w)) = posts w /\
  awaiting (snd (copyToClipboard api t w)) = awaiting w.
Proof. now destruct api. Qed.

Lemma run_snoc (u : jsstring) (w : World) (es : list Event) (e : Event) :
  run u w (es ++ [e]) = step u (run u w es) e.
Proof. unfold run. now rewrite fold_left_app. Qed.

Lemma generateReplies_begin_blank (u : jsstring) (w : World) :
  trim (emailContent (app w)) = [] ->
  generateReplies_begin u w
  = (with_app (setError validationMessage) w, Returned).
Proof.
  intros H. unfold generateReplies_begin. now rewrite H.
Qed.

Lemma generateReplies_begin_nonblank (u : jsstring) (w : World) :
  trim (emailContent (app w)) <> [] ->
  generateReplies_begin u w
  = (axios_post (API u ++ lit "/generate-replies")
       (mkPayload (emailContent (app w)) (or_null (senderName (app w)))
                  (or_null (senderEmail (app w))))
       (with_app (setSelectedReply None)
          (with_app (setReplies [])
             (with_app (setError [])
                (with_app (setLoading true) w)))),
     AwaitingPost).
Proof.
  intros H. unfold generateReplies_begin.
  destruct (truthy_str (trim (emailContent (app w)))) eqn:Ht; simpl.
  - reflexivity.
  - apply truthy_str_false in Ht. contradiction.
Qed.

(** A user event leaves an in-flight page in flight: the button is
    disabled, and there is neither a card nor an editor to act on. *)
Lemma user_event_in_flight (u : jsstring) (w : World) (e : Event) :
  user_event e = true -> in_flight w -> in_flight (step u w e).
Proof.
  unfold in_flight. intros He (Hl & Hr & Hs & Ha).
  destruct e; simpl in *; try discriminate;
    rewrite ?Hl, ?Hr, ?Hs; simpl; auto;
    destruct i; simpl; auto.
Qed.

Lemma user_events_in_flight (u : jsstring) (es : list Event) (w : World) :
  forallb user_event es = true -> in_flight w -> in_flight (run u w es).
Proof.
  revert w; induction es as [|e es IH]; intros w H Hw; simpl; [exact Hw|].
  simpl in H. apply andb_true_iff in H as [He Hes].
  apply IH; [exact Hes|]. now apply user_event_in_flight.
Qed.

Lemma generateReplies_begin_in_flight (u : jsstring) (w : World) :
  trim (emailContent (app w)) <> [] ->
  in_flight (fst (generateReplies_begin u w)).
Proof.
  intros H. rewrite (generateReplies_begin_nonblank u w H).
  unfold in_flight; simpl. repeat split; auto.
Qed.

Lemma step_flag_tracks_posts (u : jsstring) (w : World) (e : Event) :
  flag_tracks_posts w -> flag_tracks_posts (step u w e).
Proof.
  unfold flag_tracks_posts. intros H.
  destruct e; simpl; auto.
  - destruct (loading (app w)) eqn:Hl; [now rewrite Hl|].
    unfold generateReplies_begin.
    destruct (truthy_str (trim (emailContent (app w)))); simpl;
      rewrite ?Hl; simpl; lia.
  - destruct (nth_error (replies (app w)) i); simpl; auto.
  - destruct (nth_error (replies (app w)) i); auto.
    rewrite copyToClipboard_app.
    now rewrite (proj2 (copyToClipboard_posts api (content r) w)).
  - destruct (selectedReply (app w)); simpl; auto.
  - destruct (selectedReply (app w)); simpl; auto.
  - destruct (selectedReply (app w)); auto.
    rewrite copyToClipboard_app.
    now rewrite (proj2 (copyToClipboard_posts api (editedReply (app w)) w)).
  - destruct (selectedReply (app w)); simpl; auto.
  - destruct (awaiting w) as [|n] eqn:Hn; [now rewrite Hn|].
    destruct (loading (app w)); [|discriminate].
    injection H as ->.
    destruct o; unfold generateReplies_resume; simpl; now rewrite Hn.
Qed.

Lemma run_flag_tracks_posts (u : jsstring) (es : list Event) (w : World) :
  flag_tracks_posts w -> flag_tracks_posts (run u w es).
Proof.
  revert w; induction es as [|e es IH]; intros w H; simpl; [exact H|].
  apply IH. now apply step_flag_tracks_posts.
Qed.

(** Only an enabled click on the submit button issues a post. *)
Lemma step_posts_changed (u : jsstring) (w : World) (e : Event) :
  posts (step u w e) <> posts w ->
  e = ClickGenerate /\ loading (app w) = false.
Proof.
  intros H.
  destruct e; simpl in H; try (now contradiction H).
  - split; [reflexivity|].
    destruct (loading (app w)); [now contradiction H | reflexivity].
  - destruct (nth_error (replies (app w)) i); now contradiction H.
  - destruct (nth_error (replies (app w)) i); [|now contradiction H].
    now rewrite (proj1 (copyToClipboard_posts api (content r) w)) in H.
  - destruct (selectedReply (app w)); now contradiction H.
  - destruct (selectedReply (app w)); now contradiction H.
  - destruct (selectedReply (app w)); [|now contradiction H].
    now rewrite (proj1 (copyToClipboard_posts api (editedReply (app w)) w))
      in H.
  - destruct (selectedReply (app w)); now contradiction H.
  - destruct (awaiting w); [now contradiction H|].
    destruct o; now contradiction H.
Qed.

(** Only the settling of a post switches the loading flag off. *)
Lemma step_loading_off (u : jsstring) (w : World) (e : Event) :
  loading (app w) = true -> loading (app (step u w e)) = false ->
  exists o, e = PostSettles o.
Proof.
  intros Hl Hoff.
  destruct e; simpl in Hoff; rewrite ?Hl in Hoff; try congruence.
  - destruct (nth_error (replies (app w)) i); simpl in Hoff; congruence.
  - destruct (nth_error (replies (app w)) i);
      rewrite ?copyToClipboard_app in Hoff; congruence.
  - destruct (selectedReply (app w)); simpl in Hoff; congruence.
  - destruct (selectedReply (app w)); simpl in Hoff; congruence.
  - destruct (selectedReply (app w));
      rewrite ?copyToClipboard_app in Hoff; congruence.
  - destruct (selectedReply (app w)); simpl in Hoff; congruence.
  - now exists o.
Qed.


(** ** Submitting *)

(** C1.  When the mail trims to the empty string (so also when it holds
    only white space), a call of [generateReplies] stops at the early
    return: it sets the validation message and changes nothing else, so no
    post is issued and none is outstanding afterwards.  The sender fields
    are not consulted: the statement holds for every state. *)
Theorem blank_content_never_posts
  (u : jsstring) (w : World) (o : Outcome) :
  trim (emailContent (app w)) = [] ->
  generateReplies_begin u w
  = (with_app (setError validationMessage) w, Returned) /\
  generateReplies u o w = with_app (setError validationMessage) w /\
  posts (generateReplies u o w) = posts w /\
  awaiting (generateReplies u o w) = awaiting w /\
  error (app (generateReplies u o w)) = validationMessage.
Proof.
  intros H.
  pose proof (generateReplies_begin_blank u w H) as Hb.
  unfold generateReplies. rewrite Hb. auto.
Qed.

(** C2, as amended.  A call of [generateReplies] on a non-blank mail whose
    post is rejected ends with an empty reply list, whatever the list was
    before: the list is cleared before the post is issued and the failure
    path does not restore it.  The three form fields and the edit buffer
    are as before, the spinner is off and the message is the one computed
    from the rejection. *)
Theorem failed_submit_clears_replies
  (u : jsstring) (w : World) (err : AxiosError) :
  trim (emailContent (app w)) <> [] ->
  let w' := generateReplies u (Rejected err) w in
  replies (app w') = [] /\
  error (app w') = errorMessage err /\
  emailContent (app w') = emailContent (app w) /\
  senderName (app w') = senderName (app w) /\
  senderEmail (app w') = senderEmail (app w) /\
  editedReply (app w') = editedReply (app w) /\
  loading (app w') = false.
Proof.
  intros H. unfold generateReplies.
  rewrite (generateReplies_begin_nonblank u w H). simpl. auto 10.
Qed.

(** C3.  In every state the page reaches from a fresh mount, by any
    sequence of user and network events, at most one post is outstanding,
    and the loading flag is on exactly while one is.  An event issues a
    post only if it is a click on the submit button with nothing
    outstanding, and the flag goes off only when the outstanding post
    settles. *)
Theorem one_post_in_flight
  (u clip : jsstring) (es : list Event) :
  let w := run u (initialWorld clip) es in
  awaiting w <= 1 /\
  (loading (app w) = true <-> awaiting w = 1) /\
  (forall e, posts (step u w e) <> posts w ->
             e = ClickGenerate /\ awaiting w = 0 /\ loading (app w) = false) /\
  (forall e, loading (app w) = true -> loading (app (step u w e)) = false ->
             exists o, e = PostSettles o).
Proof.
  intros w.
  assert (Hinv : flag_tracks_posts w)
    by (apply run_flag_tracks_posts; reflexivity).
  clearbody w. unfold flag_tracks_posts in Hinv.
  split; [destruct (loading (app w)); lia|].
  split; [destruct (loading (app w)); split; (congruence || lia)|].
  split.
  - intros e H. apply step_posts_changed in H as [-> Hl].
    rewrite Hl in Hinv. auto.
  - intros e Hl Hoff. now apply (step_loading_off u w e).
Qed.

(** C4.  Submit a non-blank mail from any state, whatever replies and
    selection it holds; let the user do anything while the post is
    outstanding; let the post be fulfilled with the list [rs].  Then the
    page holds exactly [rs], so as many replies as the response carried,
    and no reply is selected. *)
Theorem fulfilled_post_installs_replies
  (u : jsstring) (w : World) (es : list Event) (rs : list Reply) :
  trim (emailContent (app w)) <> [] ->
  forallb user_event es = true ->
  let w' := run u (fst (generateReplies_begin u w))
                (es ++ [PostSettles (Fulfilled rs)]) in
  replies (app w') = rs /\
  List.length (replies (app w')) = List.length rs /\
  selectedReply (app w') = None /\
  loading (app w') = false.
Proof.
  intros Hc Hes w'. subst w'. rewrite run_snoc.
  pose proof (user_events_in_flight u es _ Hes
                (generateReplies_begin_in_flight u w Hc))
    as (Hl & Hr & Hs & Ha).
  set (w1 := run u (fst (generateReplies_begin u w)) es) in *.
  simpl. destruct (awaiting w1); [contradiction|].
  simpl. auto.
Qed.

(** ** Selecting and editing *)

(** C5.  Clicking the card of a reply of the current list selects that
    reply and loads its content into the edit buffer, whatever was
    selected and whatever the buffer held before. *)
Theorem select_loads_content
  (u : jsstring) (w : World) (i : nat) (reply : Reply) :
  nth_error (replies (app w)) i = Some reply ->
  let w' := step u w (ClickReplyCard i) in
  selectedReply (app w') = Some reply /\
  editedReply (app w') = content reply /\
  editorOpen (app w') = true.
Proof.
  intros H. simpl. rewrite H. simpl. auto.
Qed.

Lemma editor_actions_keep_selection
  (u : jsstring) (xs : list EditorAction) (w : World) (reply : Reply) :
  selectedReply (app w) = Some reply ->
  selectedReply (app (run u w (map editor_event xs))) = Some reply /\
  replies (app (run u w (map editor_event xs))) = replies (app w).
Proof.
  revert w; induction xs as [|x xs IH]; intros w H; [simpl; auto|].
  change (run u w (map editor_event (x :: xs)))
    with (run u (step u w (editor_event x)) (map editor_event xs)).
  assert (Hx : selectedReply (app (step u w (editor_event x))) = Some reply /\
               replies (app (step u w (editor_event x))) = replies (app w))
    by (destruct x; simpl; rewrite H; simpl; auto).
  destruct Hx as [Hx1 Hx2].
  destruct (IH _ Hx1) as [IH1 IH2].
  rewrite IH2, Hx2. auto.
Qed.

(** C6.  Open the editor on a reply, then edit and reset in any order and
    any number of times, with any texts.  The selected reply is still the
    one that was opened and the reply list is untouched, and one more
    click on the reset button puts the content of that reply back into the
    buffer. *)
Theorem reset_restores_original
  (u : jsstring) (w : World) (reply : Reply) (xs : list EditorAction) :
  let w1 := run u (selectReply reply w) (map editor_event xs) in
  let w2 := step u w1 ClickReset in
  selectedReply (app w1) = Some reply /\
  replies (app w1) = replies (app w) /\
  editedReply (app w2) = content reply /\
  selectedReply (app w2) = Some reply /\
  replies (app w2) = replies (app w).
Proof.
  intros w1 w2.
  destruct (editor_actions_keep_selection u xs (selectReply reply w) reply
              eq_refl) as [Hs Hr].
  fold w1 in Hs, Hr. simpl in Hr.
  subst w2. simpl. rewrite Hs. simpl. auto.
Qed.

(** ** Failures *)

(** C7, as amended.  After a rejected post the message is the [detail] of
    the response body when that field is there and is not the empty
    string, and the fixed fallback text in every other case: no response,
    no body, no [detail], or an empty [detail]. *)
Theorem error_message_detail_or_fallback (w : World) (err : AxiosError) :
  error (app (generateReplies_resume (Rejected err) w))
  = match error_detail err with
    | Some (c :: d) => c :: d
    | _ => fallbackMessage
    end.
Proof.
  unfold generateReplies_resume. simpl. unfold errorMessage.
  destruct (error_detail err) as [[|c d]|]; reflexivity.
Qed.

(** ** Tone presentation *)

Lemma unknown_tone_own_property (t : jsstring) :
  known_tone t = false ->
  own_property icons t = None /\ own_property colors t = None.
Proof.
  unfold known_tone, icons, colors. cbn [existsb own_property].
  destruct (str_eqb (lit "professional") t); [discriminate|].
  destruct (str_eqb (lit "friendly") t); [discriminate|].
  destruct (str_eqb (lit "brief") t); [discriminate|].
  destruct (str_eqb (lit "detailed") t); [discriminate|].
  auto.
Qed.

(** A tone outside the two literals that is not a property name of
    [Object.prototype] gets the default icon and the default class; a
    tone of the literals gets a string of its own. *)
Lemma tone_lookup_plain_key (t : jsstring) :
  inherited_key t = false ->
  (known_tone t = false ->
   getToneIcon t = VString defaultIcon /\
   getToneColor t = VString defaultColor) /\
  (known_tone t = true ->
   exists i c, getToneIcon t = VString i /\ getToneColor t = VString c /\
               i <> [] /\ c <> []).
Proof.
  intros Hi. split.
  - intros Hk. destruct (unknown_tone_own_property t Hk) as [H1 H2].
    unfold getToneIcon, getToneColor, get. rewrite H1, H2.
    unfold inherited_key in Hi. apply orb_false_iff in Hi as [Hm Hp].
    unfold object_prototype_get. now rewrite Hm, Hp.
  - unfold known_tone. cbn [existsb]. intros Hk.
    repeat (apply orb_true_iff in Hk as [Hk | Hk]);
      try discriminate; apply str_eqb_eq in Hk; subst t;
      do 2 eexists; (split; [reflexivity|]); (split; [reflexivity|]);
      split; discriminate.
Qed.

(** C8.  The tone [constructor] is in neither literal, yet both lookups
    find it on [Object.prototype]: they return the function [Object], not
    the default icon and not the default class.  The same happens for the
    other inherited names, and [__proto__] yields the prototype object. *)
Theorem inherited_tone_escapes_default :
  known_tone (lit "constructor") = false /\
  getToneIcon (lit "constructor") = VFunction (lit "Object") /\
  getToneColor (lit "constructor") = VFunction (lit "Object") /\
  getToneIcon (lit "constructor") <> VString defaultIcon /\
  getToneColor (lit "constructor") <> VString defaultColor /\
  getToneColor (lit "toString") = VFunction (lit "toString") /\
  getToneIcon (lit "__proto__") = VObjectPrototype.
Proof.
  repeat split; try reflexivity; discriminate.
Qed.

(** ** Copying *)

(** What [copyToClipboard] does for every text when the clipboard API
    exists: it returns [undefined] and shows the same acknowledgment
    whether the write is rejected or fulfilled, and it never touches the
    component state, so the caller sees one outcome for both.  Only the
    clipboard tells them apart, holding the text after a fulfilled write
    and its old content after a rejected one. *)
Theorem copy_acknowledges_either_way (text : jsstring) (w : World) :
  let denied := copyToClipboard WriteRejects text w in
  let granted := copyToClipboard WriteFulfils text w in
  fst denied = ReturnsUndefined /\
  fst granted = ReturnsUndefined /\
  alerts (snd denied) = alerts w ++ [copiedMessage] /\
  alerts (snd granted) = alerts w ++ [copiedMessage] /\
  app (snd denied) = app w /\
  app (snd granted) = app w /\
  clipboard (snd denied) = clipboard w /\
  clipboard (snd granted) = text.
Proof.
  simpl. auto 10.
Qed.

(** ** Selection across a submit *)

(** C10.  A submit of a non-blank mail clears the selection, which closes
    the editor panel, and does so in the state the post is issued from.
    Whatever the user does while the post is outstanding, when it is
    rejected there is still no selection and no editor, even if one was
    open before the submit. *)
Theorem submit_closes_editor (u : jsstring) (w : World) :
  trim (emailContent (app w)) <> [] ->
  let w1 := fst (generateReplies_begin u w) in
  (exists w0 req,
     w1 = axios_post (url req) (body req) w0 /\
     selectedReply (app w0) = None /\
     posts w1 = posts w ++ [req]) /\
  selectedReply (app w1) = None /\
  editorOpen (app w1) = false /\
  forall (es : list Event) (err : AxiosError),
    forallb user_event es = true ->
    let w' := run u w1 (es ++ [PostSettles (Rejected err)]) in
    selectedReply (app w') = None /\ editorOpen (app w') = false.
Proof.
  intros Hc w1.
  pose proof (generateReplies_begin_in_flight u w Hc) as Hf.
  fold w1 in Hf.
  split; [|split; [|split]].
  - subst w1. rewrite (generateReplies_begin_nonblank u w Hc). simpl.
    eexists.
    exists (mkRequest (API u ++ lit "/generate-replies")
              (mkPayload (emailContent (app w)) (or_null (senderName (app w)))
                         (or_null (senderEmail (app w))))).
    simpl. split; [reflexivity|]. split; reflexivity.
  - apply Hf.
  - unfold editorOpen. now rewrite (proj1 (proj2 (proj2 Hf))).
  - intros es err Hes w'. subst w'. rewrite run_snoc.
    pose proof (user_events_in_flight u es _ Hes Hf) as (Hl & Hr & Hs & Ha).
    set (w2 := run u w1 es) in *.
    unfold editorOpen. simpl. destruct (awaiting w2); [contradiction|].
    simpl. now rewrite Hs.
Qed.

(** ** The theorems at the sample data *)

Lemma blank_content_never_posts_witness :
  trim (emailContent (app blankWorld)) = [] /\
  posts (generateReplies sampleUrl (Fulfilled sampleReplies) blankWorld) = [] /\
  error (app (generateReplies sampleUrl (Fulfilled sampleReplies) blankWorld))
  = validationMessage.
Proof.
  split; [reflexivity|].
  destruct (blank_content_never_posts sampleUrl blankWorld
              (Fulfilled sampleReplies) eq_refl)
    as (_ & _ & Hp & _ & He).
  split; [exact Hp | exact He].
Defined.

(** C2 as stated fails: the page shows two replies, the server answers
    "rate limited", and afterwards the page shows none. *)
Lemma failed_submit_drops_replies :
  replies (app sampleWorld) = sampleReplies /\
  error (app (generateReplies sampleUrl (Rejected rateLimited) sampleWorld))
  = lit "rate limited" /\
  replies (app (generateReplies sampleUrl (Rejected rateLimited) sampleWorld))
  = [] /\
  replies (app (generateReplies sampleUrl (Rejected rateLimited) sampleWorld))
  <> replies (app sampleWorld).
Proof.
  repeat split; try reflexivity. vm_compute. discriminate.
Qed.

Lemma failed_submit_clears_replies_witness :
  trim (emailContent (app sampleWorld)) <> [] /\
  replies (app (generateReplies sampleUrl (Rejected networkError) sampleWorld))
  = [] /\
  error (app (generateReplies sampleUrl (Rejected networkError) sampleWorld))
  = fallbackMessage.
Proof.
  assert (H : trim (emailContent (app sampleWorld)) <> [])
    by (vm_compute; discriminate).
  split; [exact H|].
  destruct (failed_submit_clears_replies sampleUrl sampleWorld networkError H)
    as (Hr & He & _).
  split; [exact Hr | exact He].
Defined.

Lemma fulfilled_post_installs_replies_witness :
  trim (emailContent (app editingWorld)) <> [] /\
  forallb user_event impatientUser = true /\
  selectedReply (app editingWorld) <> None /\
  List.length
    (replies
       (app (run sampleUrl (fst (generateReplies_begin sampleUrl editingWorld))
                 (impatientUser ++ [PostSettles (Fulfilled sampleReplies)]))))
  = 2 /\
  selectedReply
    (app (run sampleUrl (fst (generateReplies_begin sampleUrl editingWorld))
              (impatientUser ++ [PostSettles (Fulfilled sampleReplies)])))
  = None.
Proof.
  assert (H : trim (emailContent (app editingWorld)) <> [])
    by (vm_compute; discriminate).
  split; [exact H|]. split; [reflexivity|].
  split; [vm_compute; discriminate|].
  destruct (fulfilled_post_installs_replies sampleUrl editingWorld
              impatientUser sampleReplies H eq_refl)
    as (_ & Hn & Hs & _).
  split; [exact Hn | exact Hs].
Defined.

Lemma select_loads_content_witness :
  nth_error (replies (app editingWorld)) 1
  = Some (mkReply (lit "2") (lit "friendly") (lit "Hey...") (lit "Hey...")) /\
  editedReply (app editingWorld) = lit "Hey there" /\
  editedReply (app (step sampleUrl editingWorld (ClickReplyCard 1)))
  = lit "Hey...".
Proof.
  split; [reflexivity|]. split; [reflexivity|].
  destruct (select_loads_content sampleUrl editingWorld 1
              (mkReply (lit "2") (lit "friendly") (lit "Hey...") (lit "Hey..."))
              eq_refl)
    as (_ & He & _).
  exact He.
Defined.

(** C7 as stated fails: the body carries a [detail], the empty string,
    and the message shown is the fallback text, not that string. *)
Lemma empty_detail_gets_fallback :
  error_detail emptyDetail = Some [] /\
  error (app (generateReplies sampleUrl (Rejected emptyDetail) sampleWorld))
  = fallbackMessage /\
  fallbackMessage <> [].
Proof.
  repeat split; try reflexivity. vm_compute. discriminate.
Qed.

(** C9.  The code breaks the claim.  The platform rejects the write of
    the text [Hey...] and the clipboard keeps its old content, yet the
    call returns [undefined] and shows [Reply copied to clipboard!],
    exactly as it does for a write that went through: the failure is
    swallowed and the acknowledgment shown is false. *)
Lemma rejected_write_reports_success :
  fst (copyToClipboard WriteRejects (lit "Hey...") sampleWorld)
  = ReturnsUndefined /\
  alerts (snd (copyToClipboard WriteRejects (lit "Hey...") sampleWorld))
  = [copiedMessage] /\
  clipboard (snd (copyToClipboard WriteRejects (lit "Hey...") sampleWorld))
  = lit "old clipboard" /\
  fst (copyToClipboard WriteFulfils (lit "Hey...") sampleWorld)
  = fst (copyToClipboard WriteRejects (lit "Hey...") sampleWorld) /\
  alerts (snd (copyToClipboard WriteFulfils (lit "Hey...") sampleWorld))
  = alerts (snd (copyToClipboard WriteRejects (lit "Hey...") sampleWorld)).
Proof.
  repeat split; reflexivity.
Qed.

Lemma submit_closes_editor_witness :
  trim (emailContent (app editingWorld)) <> [] /\
  editorOpen (app editingWorld) = true /\
  editorOpen (app (fst (generateReplies_begin sampleUrl editingWorld)))
  = false /\
  editorOpen
    (app (run sampleUrl (fst (generateReplies_begin sampleUrl editingWorld))
              (impatientUser ++ [PostSettles (Rejected rateLimited)])))
  = false.
Proof.
  assert (H : trim (emailContent (app editingWorld)) <> [])
    by (vm_compute; discriminate).
  split; [exact H|]. split; [reflexivity|].
  destruct (submit_closes_editor sampleUrl editingWorld H)
    as (_ & _ & Ho & Hrun).
  split; [exact Ho|].
  exact (proj2 (Hrun impatientUser rateLimited eq_refl)).
Defined.

(** ** What a submit sends *)

Lemma api_url (u : jsstring) :
  API u ++ lit "/generate-replies" = u ++ lit "/api/generate-replies".
Proof. unfold API. now rewrite <- app_assoc. Qed.

Lemma or_null_cases (s : jsstring) :
  or_null s = match s with [] => None | _ :: _ => Some s end.
Proof. now destruct s. Qed.

(** X1.  A call of [generateReplies] stops at the validation exactly when
    every code unit of the mail is white space (the empty mail included);
    a single other character anywhere sends it on to the post. *)
Theorem submit_rejected_iff_white_space (u : jsstring) (w : World) :
  snd (generateReplies_begin u w) = Returned
  <-> forallb is_white_space (emailContent (app w)) = true.
Proof.
  rewrite <- trim_nil. unfold generateReplies_begin.
  destruct (truthy_str (trim (emailContent (app w)))) eqn:Ht; simpl.
  - split; [discriminate|].
    intros H. rewrite H in Ht. discriminate.
  - apply truthy_str_false in Ht. tauto.
Qed.

(** X2.  A call of [generateReplies] on a non-blank mail issues exactly
    one post, also when the loading flag is already on: the function has
    no guard of its own.  The post goes to the backend URL followed by
    [/api/generate-replies]; it carries the mail as typed, not trimmed,
    and each sender field as typed, or [null] when the field is empty. *)
Theorem submit_posts_raw_content (u : jsstring) (w : World) :
  trim (emailContent (app w)) <> [] ->
  let w1 := fst (generateReplies_begin u w) in
  exists req,
    posts w1 = posts w ++ [req] /\
    awaiting w1 = S (awaiting w) /\
    url req = u ++ lit "/api/generate-replies" /\
    email_content (body req) = emailContent (app w) /\
    sender_name (body req)
    = match senderName (app w) with [] => None | s => Some s end /\
    sender_email (body req)
    = match senderEmail (app w) with [] => None | s => Some s end.
Proof.
  intros H. rewrite (generateReplies_begin_nonblank u w H).
  exists (postedRequest u (app w)).
  split; [reflexivity|]. split; [reflexivity|].
  split; [apply api_url|]. split; [reflexivity|].
  simpl. destruct (senderName (app w)), (senderEmail (app w));
    split; reflexivity.
Qed.

Lemma postedRequest_well_formed (u : jsstring) (a : AppState) :
  trim (emailContent a) <> [] -> well_formed_request u (postedRequest u a).
Proof.
  intros H. unfold well_formed_request, postedRequest. simpl.
  rewrite api_url, !or_null_cases.
  repeat split; try assumption.
  - destruct (senderName a); discriminate.
  - destruct (senderEmail a); discriminate.
Qed.

Lemma step_posts_well_formed (u : jsstring) (w : World) (e : Event) :
  Forall (well_formed_request u) (posts w) ->
  Forall (well_formed_request u) (posts (step u w e)).
Proof.
  intros H.
  destruct (list_eq_dec
              (fun a b : Request => ltac:(repeat decide equality))
              (posts (step u w e)) (posts w)) as [E | E].
  - now rewrite E.
  - apply step_posts_changed in E as [-> Hl].
    simpl. rewrite Hl. unfold generateReplies_begin.
    destruct (truthy_str (trim (emailContent (app w)))) eqn:Ht; simpl.
    + apply Forall_app. split; [exact H|].
      constructor; [|constructor].
      apply (postedRequest_well_formed u (app w)).
      intros Hn. rewrite Hn in Ht. discriminate.
    + exact H.
Qed.

(** X3.  Whatever the user and the network do from a fresh mount, every
    request in the log went to [/api/generate-replies] under the backend
    URL, carries a mail that is not blank, and carries no sender field
    that is the empty string. *)
Theorem reachable_posts_well_formed
  (u clip : jsstring) (es : list Event) :
  Forall (well_formed_request u) (posts (run u (initialWorld clip) es)).
Proof.
  assert (G : forall w, Forall (well_formed_request u) (posts w) ->
                        Forall (well_formed_request u) (posts (run u w es))).
  { induction es as [|e es IH]; intros w H; simpl; [exact H|].
    apply IH. now apply step_posts_well_formed. }
  apply G. constructor.
Qed.

(** ** Consistency of the page *)

Lemma step_page_consistent (u : jsstring) (w : World) (e : Event) :
  page_consistent w -> page_consistent (step u w e).
Proof.
  intros (Hf & Hl & Hs).
  split; [now apply step_flag_tracks_posts|].
  unfold flag_tracks_posts in Hf.
  destruct e; simpl; auto.
  - (* ClickGenerate *)
    destruct (loading (app w)) eqn:El; [rewrite El; auto|].
    unfold generateReplies_begin.
    destruct (truthy_str (trim (emailContent (app w)))); simpl.
    + split; [auto|]. intros reply H; discriminate.
    + rewrite El. split; [discriminate | exact Hs].
  - (* ClickReplyCard *)
    destruct (nth_error (replies (app w)) i) as [reply|] eqn:En; auto.
    simpl. split.
    + intros L. destruct (Hl L) as (Hr & _). rewrite Hr in En.
      destruct i; discriminate.
    + intros r' H. injection H as <-. now apply nth_error_In with i.
  - (* ClickCopyCard *)
    destruct (nth_error (replies (app w)) i); auto.
    rewrite copyToClipboard_app. auto.
  - (* ClickCloseEditor *)
    destruct (selectedReply (app w)) eqn:Es; simpl; [|rewrite Es; auto].
    split; [|intros reply H; discriminate].
    intros L. destruct (Hl L) as (_ & Hn & _). discriminate.
  - (* ChangeEditedReply *)
    destruct (selectedReply (app w)) eqn:Es; simpl; rewrite Es; auto.
  - (* ClickCopyFinal *)
    destruct (selectedReply (app w)) eqn:Es; [|rewrite Es; auto].
    rewrite copyToClipboard_app, Es. auto.
  - (* ClickReset *)
    destruct (selectedReply (app w)) eqn:Es; simpl; rewrite Es; auto.
  - (* PostSettles *)
    destruct (awaiting w) eqn:Ea; [auto|].
    destruct (loading (app w)) eqn:El; [|discriminate].
    destruct (Hl eq_refl) as (_ & Hn & _).
    unfold generateReplies_resume.
    destruct o; simpl; rewrite Hn;
      (split; [discriminate | intros reply H; discriminate]).
Qed.

Lemma run_page_consistent (u : jsstring) (es : list Event) (w : World) :
  page_consistent w -> page_consistent (run u w es).
Proof.
  revert w; induction es as [|e es IH]; intros w H; simpl; [exact H|].
  apply IH. now apply step_page_consistent.
Qed.

Lemma initialWorld_consistent (clip : jsstring) :
  page_consistent (initialWorld clip).
Proof.
  repeat split; discriminate.
Qed.

(** X4.  In every state the page reaches from a fresh mount, a selected
    reply is one of the replies on the page; and while the loading flag
    is on the page holds no reply, no selection and no error message. *)
Theorem selection_within_replies
  (u clip : jsstring) (es : list Event) :
  let w := run u (initialWorld clip) es in
  (forall reply, selectedReply (app w) = Some reply ->
                 In reply (replies (app w))) /\
  (loading (app w) = true ->
   replies (app w) = [] /\ selectedReply (app w) = None /\
   error (app w) = []).
Proof.
  intros w.
  destruct (run_page_consistent u es _ (initialWorld_consistent clip))
    as (_ & Hl & Hs).
  split; assumption.
Qed.

(** ** How a submit ends *)

(** X5.  A call of [generateReplies] whose post is rejected always leaves
    a message that is not empty, so the error banner is rendered: the
    validation text for a blank mail, and otherwise the [detail] of the
    response or the fallback text. *)
Theorem unsuccessful_submit_shows_banner
  (u : jsstring) (w : World) (err : AxiosError) :
  truthy_str (error (app (generateReplies u (Rejected err) w))) = true.
Proof.
  unfold generateReplies, generateReplies_begin.
  destruct (truthy_str (trim (emailContent (app w)))); simpl;
    [|reflexivity].
  unfold errorMessage.
  destruct (error_detail err) as [[|c d]|]; reflexivity.
Qed.

Lemma user_event_in_flight_frame (u : jsstring) (w : World) (e : Event) :
  user_event e = true -> in_flight w ->
  posts (step u w e) = posts w /\
  awaiting (step u w e) = awaiting w /\
  console (step u w e) = console w /\
  error (app (step u w e)) = error (app w).
Proof.
  intros He (Hl & Hr & Hs & Ha).
  destruct e; simpl in *; try discriminate;
    rewrite ?Hl, ?Hr, ?Hs; simpl; auto;
    destruct i; simpl; auto.
Qed.

Lemma user_events_in_flight_frame
  (u : jsstring) (es : list Event) (w : World) :
  forallb user_event es = true -> in_flight w ->
  posts (run u w es) = posts w /\
  awaiting (run u w es) = awaiting w /\
  console (run u w es) = console w /\
  error (app (run u w es)) = error (app w).
Proof.
  revert w; induction es as [|e es IH]; intros w H Hw; simpl; [auto|].
  simpl in H. apply andb_true_iff in H as [He Hes].
  destruct (user_event_in_flight_frame u w e He Hw) as (Hp & Ha & Hc & Hr).
  destruct (IH (step u w e) Hes (user_event_in_flight u w e He Hw))
    as (Hp' & Ha' & Hc' & Hr').
  rewrite Hp', Ha', Hc', Hr'. auto.
Qed.

Lemma generateReplies_begin_frame (u : jsstring) (w : World) :
  trim (emailContent (app w)) <> [] ->
  posts (fst (generateReplies_begin u w))
  = posts w ++ [postedRequest u (app w)] /\
  awaiting (fst (generateReplies_begin u w)) = S (awaiting w) /\
  console (fst (generateReplies_begin u w)) = console w /\
  error (app (fst (generateReplies_begin u w))) = [].
Proof.
  intros H. rewrite (generateReplies_begin_nonblank u w H). simpl. auto.
Qed.

(** X6.  When the post of a non-blank submit is fulfilled, whatever the
    user did meanwhile, the message left by an earlier attempt is gone,
    nothing was written to the console, and the submit has cost exactly
    one request, which is no longer outstanding. *)
Theorem fulfilled_post_clears_error
  (u : jsstring) (w : World) (es : list Event) (rs : list Reply) :
  trim (emailContent (app w)) <> [] ->
  forallb user_event es = true ->
  let w' := run u (fst (generateReplies_begin u w))
                (es ++ [PostSettles (Fulfilled rs)]) in
  error (app w') = [] /\
  console w' = console w /\
  posts w' = posts w ++ [postedRequest u (app w)] /\
  awaiting w' = awaiting w.
Proof.
  intros Hc Hes w'. subst w'. rewrite run_snoc.
  pose proof (generateReplies_begin_in_flight u w Hc) as Hf.
  destruct (generateReplies_begin_frame u w Hc) as (Bp & Ba & Bc & Be).
  destruct (user_events_in_flight_frame u es _ Hes Hf) as (Fp & Fa & Fc & Fe).
  set (w2 := run u (fst (generateReplies_begin u w)) es) in *.
  simpl. destruct (awaiting w2) eqn:E2; [congruence|].
  simpl. rewrite E2, Fe, Fc, Fp. simpl.
  repeat split; congruence.
Qed.

(** X7.  When the post of a non-blank submit is rejected, whatever the
    user did meanwhile, the request is not sent again: the log has grown
    by that one request and nothing is outstanding.  The loading flag is
    off, so the button is enabled again, and the console has received
    one line, carrying the error. *)
Theorem rejected_post_is_not_retried
  (u : jsstring) (w : World) (es : list Event) (err : AxiosError) :
  trim (emailContent (app w)) <> [] ->
  forallb user_event es = true ->
  let w' := run u (fst (generateReplies_begin u w))
                (es ++ [PostSettles (Rejected err)]) in
  posts w' = posts w ++ [postedRequest u (app w)] /\
  awaiting w' = awaiting w /\
  loading (app w') = false /\
  console w' = console w ++ [(consolePrefix, err)].
Proof.
  intros Hc Hes w'. subst w'. rewrite run_snoc.
  pose proof (generateReplies_begin_in_flight u w Hc) as Hf.
  destruct (generateReplies_begin_frame u w Hc) as (Bp & Ba & Bc & Be).
  destruct (user_events_in_flight_frame u es _ Hes Hf) as (Fp & Fa & Fc & Fe).
  set (w2 := run u (fst (generateReplies_begin u w)) es) in *.
  simpl. destruct (awaiting w2) eqn:E2; [congruence|].
  simpl. rewrite E2, Fc, Fp. simpl.
  repeat split; congruence.
Qed.

(** X8.  After a rejected post a second click on the submit button, with
    the mail unchanged, sends the same request again; when that one is
    fulfilled the page holds the replies it carried and the message of
    the failed attempt is gone. *)
Theorem retry_after_failure
  (u : jsstring) (w : World) (err : AxiosError) (rs : list Reply) :
  trim (emailContent (app w)) <> [] ->
  let w' := run u (fst (generateReplies_begin u w))
                [ PostSettles (Rejected err); ClickGenerate;
                  PostSettles (Fulfilled rs) ] in
  replies (app w') = rs /\
  error (app w') = [] /\
  loading (app w') = false /\
  posts w' = posts w ++ [postedRequest u (app w); postedRequest u (app w)] /\
  awaiting w' = awaiting w.
Proof.
  intros Hc w'. subst w'.
  rewrite (generateReplies_begin_nonblank u w Hc).
  unfold run. cbn [fold_left fst].
  set (w1 := step u _ (PostSettles (Rejected err))).
  assert (H1 : loading (app w1) = false) by reflexivity.
  assert (Hm : emailContent (app w1) = emailContent (app w)) by reflexivity.
  assert (Hc1 : trim (emailContent (app w1)) <> []) by now rewrite Hm.
  assert (Hb : step u w1 ClickGenerate = fst (generateReplies_begin u w1))
    by (change (step u w1 ClickGenerate)
          with (if loading (app w1) then w1
                else fst (generateReplies_begin u w1));
        now rewrite H1).
  rewrite Hb, (generateReplies_begin_nonblank u w1 Hc1).
  simpl. rewrite <- app_assoc. simpl. auto.
Qed.

(** X9.  Two clicks on the submit button in a row do what one click
    does, in every state: the second finds the button disabled, or, for a
    blank mail, sets the same validation message again. *)
Theorem double_click_submits_once (u : jsstring) (w : World) :
  step u (step u w ClickGenerate) ClickGenerate = step u w ClickGenerate.
Proof.
  simpl. destruct (loading (app w)) eqn:El; [now rewrite El|].
  unfold generateReplies_begin.
  destruct (truthy_str (trim (emailContent (app w)))) eqn:Ht; simpl.
  - reflexivity.
  - rewrite El, Ht. reflexivity.
Qed.

(** ** Copying and the form *)

(** X10.  With a reply opened from its card and the buffer edited to
    [text], the copy button of the editor puts [text] on the clipboard,
    while the copy button on the card still puts the reply as the server
    sent it: editing never reaches the reply list. *)
Theorem copy_final_takes_edited_text
  (u : jsstring) (w : World) (i : nat) (reply : Reply) (text : jsstring) :
  nth_error (replies (app w)) i = Some reply ->
  let w1 := run u w [ClickReplyCard i; ChangeEditedReply text] in
  clipboard (step u w1 (ClickCopyFinal WriteFulfils)) = text /\
  clipboard (step u w1 (ClickCopyCard i WriteFulfils)) = content reply /\
  replies (app w1) = replies (app w).
Proof.
  intros H. simpl. rewrite H. simpl. rewrite H. simpl. auto.
Qed.

(** X11.  A click on a copy button, on a card or in the editor, never
    changes the component state (in particular a copy from a card does
    not select that card) and never issues a post; and where the
    platform has no clipboard API the click changes nothing at all, not
    even an acknowledgment is shown. *)
Theorem copy_leaves_component_untouched
  (u : jsstring) (w : World) (i : nat) (api : ClipboardAPI) :
  app (step u w (ClickCopyCard i api)) = app w /\
  app (step u w (ClickCopyFinal api)) = app w /\
  posts (step u w (ClickCopyCard i api)) = posts w /\
  posts (step u w (ClickCopyFinal api)) = posts w /\
  step u w (ClickCopyCard i ClipboardMissing) = w /\
  step u w (ClickCopyFinal ClipboardMissing) = w.
Proof.
  simpl.
  destruct (nth_error (replies (app w)) i), (selectedReply (app w));
    rewrite ?copyToClipboard_app;
    rewrite ?(proj1 (copyToClipboard_posts _ _ _)); auto 10.
Qed.

Lemma step_keeps_form (u : jsstring) (w : World) (e : Event) :
  form_event e = false ->
  emailContent (app (step u w e)) = emailContent (app w) /\
  senderName (app (step u w e)) = senderName (app w) /\
  senderEmail (app (step u w e)) = senderEmail (app w).
Proof.
  intros He.
  destruct e; simpl in *; try discriminate.
  - destruct (loading (app w)); auto.
    unfold generateReplies_begin.
    destruct (truthy_str (trim (emailContent (app w)))); simpl; auto.
  - destruct (nth_error (replies (app w)) i); simpl; auto.
  - destruct (nth_error (replies (app w)) i);
      rewrite ?copyToClipboard_app; auto.
  - destruct (selectedReply (app w)); simpl; auto.
  - destruct (selectedReply (app w)); simpl; auto.
  - destruct (selectedReply (app w)); rewrite ?copyToClipboard_app; auto.
  - destruct (selectedReply (app w)); simpl; auto.
  - destruct (awaiting w); auto. destruct o; simpl; auto.
Qed.

(** X12.  The mail and the two sender fields change only when the user
    types into them: no submit, whether it is refused, fails or
    succeeds, and no selecting, editing or copying, clears or alters
    what the form holds. *)
Theorem form_fields_survive
  (u : jsstring) (w : World) (es : list Event) :
  forallb (fun e => negb (form_event e)) es = true ->
  emailContent (app (run u w es)) = emailContent (app w) /\
  senderName (app (run u w es)) = senderName (app w) /\
  senderEmail (app (run u w es)) = senderEmail (app w).
Proof.
  revert w; induction es as [|e es IH]; intros w H; simpl; [auto|].
  simpl in H. apply andb_true_iff in H as [He Hes].
  apply negb_true_iff in He.
  destruct (step_keeps_form u w e He) as (H1 & H2 & H3).
  destruct (IH (step u w e) Hes) as (I1 & I2 & I3).
  rewrite I1, I2, I3. auto.
Qed.

(** ** Tone presentation, completed *)

Lemma inherited_key_not_string (t : jsstring) :
  inherited_key t = true ->
  (forall s, getToneIcon t <> VString s) /\
  (forall s, getToneColor t <> VString s).
Proof.
  unfold inherited_key, object_prototype_methods. cbn [existsb].
  intros H.
  repeat (apply orb_true_iff in H as [H | H]);
    try discriminate; apply str_eqb_eq in H; subst t;
    split; intros s E; vm_compute in E; discriminate.
Qed.

(** X13.  [getToneIcon] and [getToneColor] return a string, and then a
    non-empty one, exactly for the tones that are not a property name of
    [Object.prototype]; for such a tone outside the four listed ones the
    string is the default icon, respectively the default class. *)
Theorem tone_lookup_string_iff_plain_key (t : jsstring) :
  ((exists s, getToneIcon t = VString s /\ s <> [])
   <-> inherited_key t = false) /\
  ((exists s, getToneColor t = VString s /\ s <> [])
   <-> inherited_key t = false) /\
  (inherited_key t = false -> known_tone t = false ->
   getToneIcon t = VString defaultIcon /\
   getToneColor t = VString defaultColor).
Proof.
  assert (P : inherited_key t = false ->
              (exists s, getToneIcon t = VString s /\ s <> []) /\
              (exists s, getToneColor t = VString s /\ s <> [])).
  { intros Hi. destruct (tone_lookup_plain_key t Hi) as [Hu Hk].
    destruct (known_tone t).
    - destruct (Hk eq_refl) as (i & c & Hi' & Hc' & Ni & Nc).
      split; [now exists i | now exists c].
    - destruct (Hu eq_refl) as [Hi' Hc'].
      split; [exists defaultIcon | exists defaultColor];
        (split; [assumption | discriminate]). }
  split; [|split].
  - split; [|intros Hi; apply (P Hi)].
    intros (s & Hs & _).
    destruct (inherited_key t) eqn:Hi; [|reflexivity].
    exfalso. exact (proj1 (inherited_key_not_string t Hi) s Hs).
  - split; [|intros Hi; apply (P Hi)].
    intros (s & Hs & _).
    destruct (inherited_key t) eqn:Hi; [|reflexivity].
    exfalso. exact (proj2 (inherited_key_not_string t Hi) s Hs).
  - intros Hi Hk. now apply (tone_lookup_plain_key t Hi).
Qed.

(** ** The further theorems at the sample data *)

Lemma submit_posts_raw_content_witness :
  trim (emailContent (app paddedWorld)) <> [] /\
  loading (app paddedWorld) = true /\
  exists req,
    posts (fst (generateReplies_begin sampleUrl paddedWorld)) = [req] /\
    awaiting (fst (generateReplies_begin sampleUrl paddedWorld)) = 2 /\
    url req = lit "http://localhost:8001/api/generate-replies" /\
    email_content (body req) = lit "  hi  " /\
    sender_name (body req) = Some (lit "Ann") /\
    sender_email (body req) = None.
Proof.
  assert (H : trim (emailContent (app paddedWorld)) <> [])
    by (vm_compute; discriminate).
  split; [exact H|]. split; [reflexivity|].
  destruct (submit_posts_raw_content sampleUrl paddedWorld H)
    as (req & Hp & Ha & Hu & Hc & Hn & He).
  exists req.
  split; [exact Hp|]. split; [exact Ha|]. split; [exact Hu|].
  split; [exact Hc|]. split; [exact Hn | exact He].
Defined.

Lemma fulfilled_post_clears_error_witness :
  trim (emailContent
          (app (generateReplies sampleUrl (Rejected rateLimited) sampleWorld)))
  <> [] /\
  forallb user_event impatientUser = true /\
  error (app (generateReplies sampleUrl (Rejected rateLimited) sampleWorld))
  = lit "rate limited" /\
  error
    (app (run sampleUrl
              (fst (generateReplies_begin sampleUrl
                      (generateReplies sampleUrl (Rejected rateLimited)
                                       sampleWorld)))
              (impatientUser ++ [PostSettles (Fulfilled [])])))
  = [].
Proof.
  assert (H : trim (emailContent
                      (app (generateReplies sampleUrl (Rejected rateLimited)
                                            sampleWorld))) <> [])
    by (vm_compute; discriminate).
  split; [exact H|]. split; [reflexivity|]. split; [reflexivity|].
  exact (proj1 (fulfilled_post_clears_error sampleUrl
                  (generateReplies sampleUrl (Rejected rateLimited)
                                   sampleWorld)
                  impatientUser [] H eq_refl)).
Defined.

Lemma rejected_post_is_not_retried_witness :
  trim (emailContent (app sampleWorld)) <> [] /\
  forallb user_event impatientUser = true /\
  List.length
    (posts (run sampleUrl (fst (generateReplies_begin sampleUrl sampleWorld))
                (impatientUser ++ [PostSettles (Rejected networkError)])))
  = 1 /\
  awaiting (run sampleUrl (fst (generateReplies_begin sampleUrl sampleWorld))
                (impatientUser ++ [PostSettles (Rejected networkError)]))
  = 0.
Proof.
  assert (H : trim (emailContent (app sampleWorld)) <> [])
    by (vm_compute; discriminate).
  split; [exact H|]. split; [reflexivity|].
  destruct (rejected_post_is_not_retried sampleUrl sampleWorld impatientUser
              networkError H eq_refl)
    as (Hp & Ha & _).
  split; [now rewrite Hp | exact Ha].
Defined.

Lemma retry_after_failure_witness :
  trim (emailContent (app sampleWorld)) <> [] /\
  replies
    (app (run sampleUrl (fst (generateReplies_begin sampleUrl sampleWorld))
              [ PostSettles (Rejected rateLimited); ClickGenerate;
                PostSettles (Fulfilled sampleReplies) ]))
  = sampleReplies /\
  error
    (app (run sampleUrl (fst (generateReplies_begin sampleUrl sampleWorld))
              [ PostSettles (Rejected rateLimited); ClickGenerate;
                PostSettles (Fulfilled sampleReplies) ]))
  = [].
Proof.
  assert (H : trim (emailContent (app sampleWorld)) <> [])
    by (vm_compute; discriminate).
  split; [exact H|].
  destruct (retry_after_failure sampleUrl sampleWorld rateLimited
              sampleReplies H)
    as (Hr & He & _).
  split; [exact Hr | exact He].
Defined.

Lemma copy_final_takes_edited_text_witness :
  nth_error (replies (app sampleWorld)) 1
  = Some (mkReply (lit "2") (lit "friendly") (lit "Hey...") (lit "Hey...")) /\
  clipboard
    (step sampleUrl
          (run sampleUrl sampleWorld
               [ClickReplyCard 1; ChangeEditedReply (lit "Hey there")])
          (ClickCopyFinal WriteFulfils))
  = lit "Hey there" /\
  clipboard
    (step sampleUrl
          (run sampleUrl sampleWorld
               [ClickReplyCard 1; ChangeEditedReply (lit "Hey there")])
          (ClickCopyCard 1 WriteFulfils))
  = lit "Hey...".
Proof.
  split; [reflexivity|].
  destruct (copy_final_takes_edited_text sampleUrl sampleWorld 1
              (mkReply (lit "2") (lit "friendly") (lit "Hey...")
                       (lit "Hey..."))
              (lit "Hey there") eq_refl)
    as (Hf & Hc & _).
  split; [exact Hf | exact Hc].
Defined.

Lemma form_fields_survive_witness :
  forallb (fun e => negb (form_event e))
          [ClickGenerate; PostSettles (Rejected rateLimited); ClickGenerate;
           PostSettles (Fulfilled sampleReplies); ClickReplyCard 0]
  = true /\
  emailContent
    (app (run sampleUrl paddedWorld
              [ClickGenerate; PostSettles (Rejected rateLimited);
               ClickGenerate; PostSettles (Fulfilled sampleReplies);
               ClickReplyCard 0]))
  = lit "  hi  " /\
  senderName
    (app (run sampleUrl paddedWorld
              [ClickGenerate; PostSettles (Rejected rateLimited);
               ClickGenerate; PostSettles (Fulfilled sampleReplies);
               ClickReplyCard 0]))
  = lit "Ann".
Proof.
  split; [reflexivity|].
  destruct (form_fields_survive sampleUrl paddedWorld
              [ClickGenerate; PostSettles (Rejected rateLimited);
               ClickGenerate; PostSettles (Fulfilled sampleReplies);
               ClickReplyCard 0] eq_refl)
    as (Hm & Hn & _).
  split; [exact Hm | exact Hn].
Defined.
